(** * Bet strategies of the prediction bot

    A shallow embedding of [bot-lib/strategies/bet-strategy.module.js]:
    [parseTransactionReceipt], [betDownStrategy], [betUpStrategy] and
    [claimStrategy].

    The module is glue between collaborators that live in other files of
    the bot (the smart-contract client, the history store, the simulated
    wallet, the unit and currency helpers and the global configuration).
    What the strategies themselves do is: call those collaborators in a
    fixed order with fixed arguments, combine their answers, and let their
    failures through.  The embedding therefore has two layers:

    - JavaScript numbers are kept abstract (a type [num] with the literal
      [0], [*] and [-]); every theorem holds for any arithmetic, IEEE
      doubles included;
    - an [async] function body is a computation over a [World] which holds
      the global configuration, the simulated balance, the stored history
      and the log of collaborator calls made so far.  A computation either
      resolves with a value or rejects with an error, and in both cases
      leaves a world behind (JavaScript does not roll anything back). *)

From Stdlib Require Import ZArith QArith Qabs List String Bool Lia Lqa DecimalString.
From ExtLib Require Import Structures.Monad.
Import ListNotations.
Import MonadNotation.
Local Open Scope monad_scope.
Local Open Scope Z_scope.

Set Implicit Arguments.

(** ** Numbers *)

(** The three things the module does with a JavaScript number: the literal
    [0] (line 76 and line 62), [a * b] (line 80) and [a - b] (lines 26, 44). *)
Class JsArith (num : Type) : Type := {
  zero : num;
  mul : num -> num -> num;
  sub : num -> num -> num
}.

(** ** Settled promises and thrown exceptions *)

(** What awaiting a promise, or calling a function that may throw, gives:
    a value, or an error travelling up the stack. *)
Inductive Completion (exn A : Type) : Type :=
| Resolved (a : A)
| Rejected (e : exn).

Arguments Resolved {exn A} a.
Arguments Rejected {exn A} e.

(** JavaScript truthiness of a property that holds a boolean when it is
    there: a missing property reads as [undefined], which is falsy. *)
Definition truthy (v : option bool) : bool :=
  match v with
  | Some b => b
  | None => false
  end.

Section Strategies.

Context (num exn : Type) {arith : JsArith num}.

(** ** Data *)

(** The receipt handed back by [betUp] / [betDown].  [status] is a number;
    the gas fields are absent from the receipt built when the submission
    itself failed, and [transactionExeption] (the source's spelling of the
    property the specification calls transactionException) is absent from a
    receipt that comes straight from the chain. *)
Record TxReceipt : Type := {
  status : Z;
  gasUsed : option num;
  effectiveGasPrice : option num;
  transactionExeption : option bool
}.

(** The object [parseTransactionReceipt] returns. *)
Record Outcome : Type := {
  betExecuted : bool;
  txGasFee : num
}.

(** Modelled from the spec: the constants [BET_DOWN] and [BET_UP] of
    [bot.constants], two tags naming the direction of a bet. *)
Inductive Bet : Type := BET_DOWN | BET_UP.

(** One element of the list passed to [saveRoundInHistory] (lines 28, 46). *)
Record BetRecord : Type := {
  round : num;
  betAmount : num;
  bet : Bet;
  rec_betExecuted : bool;
  rec_txGasFee : num
}.

(** What [claimStrategy] resolves with: the object [claimRewards] returned,
    or the literal [{ status: 0, txGasFee: 0 }], which has no
    [transactionExeption] property. *)
Record ClaimOutcome : Type := {
  claim_status : Z;
  claim_txGasFee : num;
  claim_transactionExeption : option bool
}.

(** [GLOBAL_CONFIG], as far as this module reads it. *)
Record GlobalConfig : Type := {
  SIMULATION_MODE : bool;
  CLAIM_REWARDS : bool
}.

(** ** Collaborators *)

(** One entry per call that leaves the module towards the contract client,
    the history store or the simulated wallet, with its arguments. *)
Inductive Call : Type :=
| call_betDown (amount epoch : num)
| call_betUp (amount epoch : num)
| call_isClaimableRound (epoch : num)
| call_claimRewards (epochs : list num)
| call_saveRoundInHistory (records : list BetRecord)
| call_getSimulationBalance
| call_updateSimulationBalance (balance : num).

(** The behaviour of the code that is required from other files.  The
    currency helpers are total functions.  [formatUnit] takes the value to
    format ([None] when the caller passes [undefined]) and the optional
    decimals argument, and may throw.  The contract client and the history
    store answer with a promise that resolves or rejects. *)
Record Collaborators : Type := {
  parseFromUsdToCrypto : num -> num;
  parseFeeFromCryptoToUsd : num -> num;
  formatUnit : option num -> option string -> Completion exn num;
  reply_betDown : num -> num -> Completion exn TxReceipt;
  reply_betUp : num -> num -> Completion exn TxReceipt;
  reply_isClaimableRound : num -> Completion exn bool;
  reply_claimRewards : list num -> Completion exn ClaimOutcome;
  reply_saveRoundInHistory : list BetRecord -> Completion exn unit
}.

Variable C : Collaborators.

(** ** parseTransactionReceipt (lines 73-83) *)

(** Sequencing of calls that may throw. *)
Definition and_then {A B : Type}
    (c : Completion exn A) (k : A -> Completion exn B) : Completion exn B :=
  match c with
  | Resolved a => k a
  | Rejected e => Rejected e
  end.

Definition parseTransactionReceipt (txReceipt : TxReceipt) : Completion exn Outcome :=
  let betExecuted := txReceipt.(status) =? 1 in
  if truthy txReceipt.(transactionExeption) then
    Resolved {| betExecuted := betExecuted; txGasFee := zero |}
  else
    and_then (C.(formatUnit) txReceipt.(gasUsed) None) (fun gasUsed =>
    and_then (C.(formatUnit) txReceipt.(effectiveGasPrice) None) (fun effectiveGasPrice =>
    and_then (C.(formatUnit) (Some (mul gasUsed effectiveGasPrice)) (Some "18"%string)) (fun txGasFee =>
    Resolved {| betExecuted := txReceipt.(status) =? 1; txGasFee := txGasFee |}))).

(** ** The world an [async] function runs in *)

(** Modelled from the spec: the state behind the collaborators that are not
    in this file.  [configuredBetAmount] is what [getBetAmount()] of
    [utils.module] reads, [simulationBalance] is the ledger of
    [wallet.module] behind [getSimulationBalance] and
    [updateSimulationBalance], [history] is what [history.module] has
    stored, and [calls] lists the collaborator calls made so far, oldest
    first. *)
Record World : Type := {
  GLOBAL_CONFIG : GlobalConfig;
  configuredBetAmount : num;
  simulationBalance : num;
  history : list BetRecord;
  calls : list Call
}.

Definition log (c : Call) (w : World) : World :=
  {| GLOBAL_CONFIG := w.(GLOBAL_CONFIG);
     configuredBetAmount := w.(configuredBetAmount);
     simulationBalance := w.(simulationBalance);
     history := w.(history);
     calls := w.(calls) ++ [c] |}.

Definition set_balance (balance : num) (w : World) : World :=
  {| GLOBAL_CONFIG := w.(GLOBAL_CONFIG);
     configuredBetAmount := w.(configuredBetAmount);
     simulationBalance := balance;
     history := w.(history);
     calls := w.(calls) |}.

Definition store (records : list BetRecord) (w : World) : World :=
  {| GLOBAL_CONFIG := w.(GLOBAL_CONFIG);
     configuredBetAmount := w.(configuredBetAmount);
     simulationBalance := w.(simulationBalance);
     history := w.(history) ++ records;
     calls := w.(calls) |}.

(** The body of an [async] function: from the world it starts in to how it
    settles and the world it leaves. *)
Record Async (A : Type) : Type := MkAsync {
  run : World -> Completion exn A * World
}.

Arguments MkAsync {A} run.

#[local] Instance Monad_Async : Monad Async := {
  ret := fun A (a : A) => MkAsync (fun w => (Resolved a, w));
  bind := fun A B (m : Async A) (k : A -> Async B) =>
    MkAsync (fun w =>
      match run m w with
      | (Resolved a, w') => run (k a) w'
      | (Rejected e, w') => (Rejected e, w')
      end)
}.

(** A synchronous call that may throw, made from inside the body. *)
Definition call {A : Type} (c : Completion exn A) : Async A :=
  MkAsync (fun w => (c, w)).

(** Reading [GLOBAL_CONFIG]. *)
Definition global_config : Async GlobalConfig :=
  MkAsync (fun w => (Resolved w.(GLOBAL_CONFIG), w)).

(** Modelled from the spec: [getBetAmount] of [utils.module] gives the
    configured fiat bet amount and changes nothing. *)
Definition getBetAmount : Async num :=
  MkAsync (fun w => (Resolved w.(configuredBetAmount), w)).

(** Modelled from the spec: the simulated wallet of [wallet.module] is one
    number, read by [getSimulationBalance] and overwritten by
    [updateSimulationBalance]. *)
Definition getSimulationBalance : Async num :=
  MkAsync (fun w => (Resolved w.(simulationBalance), log call_getSimulationBalance w)).

Definition updateSimulationBalance (balance : num) : Async unit :=
  MkAsync (fun w =>
    (Resolved tt, set_balance balance (log (call_updateSimulationBalance balance) w))).

(** [await betDown(amount, epoch)] and its siblings: the call is logged and
    the collaborator's settlement is what the [await] yields. *)
Definition betDown (amount epoch : num) : Async TxReceipt :=
  MkAsync (fun w => (C.(reply_betDown) amount epoch, log (call_betDown amount epoch) w)).

Definition betUp (amount epoch : num) : Async TxReceipt :=
  MkAsync (fun w => (C.(reply_betUp) amount epoch, log (call_betUp amount epoch) w)).

Definition isClaimableRound (epoch : num) : Async bool :=
  MkAsync (fun w => (C.(reply_isClaimableRound) epoch, log (call_isClaimableRound epoch) w)).

Definition claimRewards (epochs : list num) : Async ClaimOutcome :=
  MkAsync (fun w => (C.(reply_claimRewards) epochs, log (call_claimRewards epochs) w)).

(** Modelled from the spec: the history store appends the records when the
    write succeeds and keeps nothing of a write that fails. *)
Definition saveRoundInHistory (records : list BetRecord) : Async unit :=
  MkAsync (fun w =>
    let w' := log (call_saveRoundInHistory records) w in
    match C.(reply_saveRoundInHistory) records with
    | Resolved u => (Resolved u, store records w')
    | Rejected e => (Rejected e, w')
    end).

(** JavaScript's [a && b] on booleans: [b] is evaluated only when [a] is
    truthy. *)
Definition js_and (a : bool) (b : Async bool) : Async bool :=
  if a then b else ret false.

(** ** betDownStrategy (lines 22-30) *)

Definition betDownStrategy (epoch : num) : Async bool :=
  usd <- getBetAmount ;;
  let cryptoBetAmount := C.(parseFromUsdToCrypto) usd in
  txReceipt <- betDown cryptoBetAmount epoch ;;
  transaction <- call (parseTransactionReceipt txReceipt) ;;
  config <- global_config ;;
  (if config.(SIMULATION_MODE) then
     balance <- getSimulationBalance ;;
     usd' <- getBetAmount ;;
     updateSimulationBalance
       (sub (sub balance usd') (C.(parseFeeFromCryptoToUsd) transaction.(txGasFee)))
   else ret tt) ;;
  round <- call (C.(formatUnit) (Some epoch) None) ;;
  saveRoundInHistory
    [ {| round := round; betAmount := cryptoBetAmount; bet := BET_DOWN;
         rec_betExecuted := transaction.(betExecuted);
         rec_txGasFee := transaction.(txGasFee) |} ] ;;
  ret transaction.(betExecuted).

(** ** betUpStrategy (lines 40-48) *)

Definition betUpStrategy (epoch : num) : Async bool :=
  usd <- getBetAmount ;;
  let cryptoBetAmount := C.(parseFromUsdToCrypto) usd in
  txReceipt <- betUp cryptoBetAmount epoch ;;
  transaction <- call (parseTransactionReceipt txReceipt) ;;
  config <- global_config ;;
  (if config.(SIMULATION_MODE) then
     balance <- getSimulationBalance ;;
     usd' <- getBetAmount ;;
     updateSimulationBalance
       (sub (sub balance usd') (C.(parseFeeFromCryptoToUsd) transaction.(txGasFee)))
   else ret tt) ;;
  round <- call (C.(formatUnit) (Some epoch) None) ;;
  saveRoundInHistory
    [ {| round := round; betAmount := cryptoBetAmount; bet := BET_UP;
         rec_betExecuted := transaction.(betExecuted);
         rec_txGasFee := transaction.(txGasFee) |} ] ;;
  ret transaction.(betExecuted).

(** ** claimStrategy (lines 58-64) *)

Definition claimStrategy (epoch : num) : Async ClaimOutcome :=
  config <- global_config ;;
  claim <- js_and config.(CLAIM_REWARDS) (isClaimableRound epoch) ;;
  if (claim : bool) then claimRewards [epoch]
  else ret {| claim_status := 0; claim_txGasFee := zero;
              claim_transactionExeption := None |}.

(** ** Vocabulary of the statements *)



(** The strategy that bets in a direction, the contract call it makes and
    the answer that call gets. *)
Definition strategy (direction : Bet) : num -> Async bool :=
  match direction with
  | BET_DOWN => betDownStrategy
  | BET_UP => betUpStrategy
  end.

Definition reply_bet (direction : Bet) : num -> num -> Completion exn TxReceipt :=
  match direction with
  | BET_DOWN => C.(reply_betDown)
  | BET_UP => C.(reply_betUp)
  end.

Definition call_bet (direction : Bet) : num -> num -> Call :=
  match direction with
  | BET_DOWN => call_betDown
  | BET_UP => call_betUp
  end.

(** The crypto amount sent to the contract from a world. *)
Definition cryptoBetAmount (w : World) : num :=
  C.(parseFromUsdToCrypto) w.(configuredBetAmount).

(** The record a strategy saves. *)
Definition bet_record (direction : Bet) (round amount : num) (transaction : Outcome)
    : BetRecord :=
  {| round := round; betAmount := amount; bet := direction;
     rec_betExecuted := transaction.(betExecuted);
     rec_txGasFee := transaction.(txGasFee) |}.

(** The calls to the simulated wallet a strategy makes after a bet: none
    outside simulation mode, a read then a write in simulation mode. *)
Definition ledger_calls (w : World) (transaction : Outcome) : list Call :=
  if w.(GLOBAL_CONFIG).(SIMULATION_MODE) then
    [ call_getSimulationBalance;
      call_updateSimulationBalance
        (sub (sub w.(simulationBalance) w.(configuredBetAmount))
             (C.(parseFeeFromCryptoToUsd) transaction.(txGasFee))) ]
  else [].

Definition is_ledger_call (c : Call) : bool :=
  match c with
  | call_getSimulationBalance | call_updateSimulationBalance _ => true
  | _ => false
  end.

Definition is_history_call (c : Call) : bool :=
  match c with
  | call_saveRoundInHistory _ => true
  | _ => false
  end.

(** The object literal of line 62. *)
Definition no_claim : ClaimOutcome :=
  {| claim_status := 0; claim_txGasFee := zero; claim_transactionExeption := None |}.

(** The calls that go to the contract client. *)
Definition is_contract_call (c : Call) : bool :=
  match c with
  | call_betDown _ _ | call_betUp _ _
  | call_isClaimableRound _ | call_claimRewards _ => true
  | _ => false
  end.

(** A world with [GLOBAL_CONFIG.SIMULATION_MODE] set to [mode] and
    everything else as it is. *)
Definition with_simulation (mode : bool) (w : World) : World :=
  {| GLOBAL_CONFIG :=
       {| SIMULATION_MODE := mode;
          CLAIM_REWARDS := w.(GLOBAL_CONFIG).(CLAIM_REWARDS) |};
     configuredBetAmount := w.(configuredBetAmount);
     simulationBalance := w.(simulationBalance);
     history := w.(history);
     calls := w.(calls) |}.

(** The balance a bet strategy leaves once the receipt is parsed: debited
    in simulation mode, untouched otherwise (lines 25-27, 43-45). *)
Definition balance_after (w : World) (transaction : Outcome) : num :=
  if w.(GLOBAL_CONFIG).(SIMULATION_MODE) then
    sub (sub w.(simulationBalance) w.(configuredBetAmount))
        (C.(parseFeeFromCryptoToUsd) transaction.(txGasFee))
  else w.(simulationBalance).

End Strategies.

Arguments call {num exn A} c.
Arguments no_claim {num arith}.
Arguments is_ledger_call {num} c.
Arguments is_history_call {num} c.
Arguments is_contract_call {num} c.

(** * A concrete instance

    Exact rational arithmetic for the numbers, strings for the errors, and
    collaborators with fixed answers.  It is used to run the strategies on
    concrete inputs. *)

Module Sample.

#[global] Instance arithQ : JsArith Q := {
  zero := 0%Q;
  mul := Qmult;
  sub := Qminus
}.

(** The decimals argument of [formatUnit]: the given default when it is
    omitted, the number a decimal string denotes otherwise. *)
Definition decimals_of (default : nat) (unit : option string) : option nat :=
  match unit with
  | None => Some default
  | Some s => option_map Nat.of_uint (DecimalString.NilZero.uint_of_string s)
  end.

(** Modelled from the spec: [formatUnit] of [utils.module], the unit
    formatter [format(rawBaseUnitValue, decimals) -> decimalNumber], which
    turns a raw base-unit value into a decimal number by moving the decimal
    point [decimals] places to the left.  [default] is the number of places
    taken when the argument is omitted.  Rounding to a double is left out:
    the result is the exact quotient, in lowest terms. *)
Definition formatUnitQ (default : nat) (amount : option Q) (unit : option string)
    : Completion string Q :=
  match amount, decimals_of default unit with
  | Some a, Some d => Resolved (Qred (a / inject_Z (10 ^ Z.of_nat d)))
  | None, _ => Rejected "invalid BigNumber value"%string
  | _, None => Rejected "invalid decimals"%string
  end.

(** Collaborators that answer the same whatever they are asked: a bet
    settles as [bet], a claimability check as [claimable], a claim as
    [claim] and a history write as [saved].  One crypto unit is worth 300
    fiat units. *)
Definition collaborators (default : nat)
    (bet : Completion string (TxReceipt Q))
    (claimable : Completion string bool)
    (claim : Completion string (ClaimOutcome Q))
    (saved : Completion string unit) : Collaborators Q string :=
  {| parseFromUsdToCrypto := fun usd => (usd / 300)%Q;
     parseFeeFromCryptoToUsd := fun fee => (fee * 300)%Q;
     formatUnit := formatUnitQ default;
     reply_betDown := fun _ _ => bet;
     reply_betUp := fun _ _ => bet;
     reply_isClaimableRound := fun _ => claimable;
     reply_claimRewards := fun _ => claim;
     reply_saveRoundInHistory := fun _ => saved |}.

(** The receipt of the specification's example: status 1, 21000 gas used at
    a price of 5e9 base units, no exception. *)
Definition receipt_21000 : TxReceipt Q :=
  {| status := 1;
     gasUsed := Some (inject_Z 21000);
     effectiveGasPrice := Some (inject_Z 5000000000);
     transactionExeption := Some false |}.

(** The same gas figures on a transaction that reverted. *)
Definition receipt_reverted : TxReceipt Q :=
  {| status := 0;
     gasUsed := Some (inject_Z 21000);
     effectiveGasPrice := Some (inject_Z 5000000000);
     transactionExeption := Some false |}.

(** The receipt of a submission that threw: no gas fields. *)
Definition receipt_exception : TxReceipt Q :=
  {| status := 0;
     gasUsed := None;
     effectiveGasPrice := None;
     transactionExeption := Some true |}.

Definition claimed : ClaimOutcome Q :=
  {| claim_status := 1;
     claim_txGasFee := (1 # 4000)%Q;
     claim_transactionExeption := Some false |}.

(** Everything succeeds and the bet settles with [receipt_21000]; the
    formatter moves the decimal point by [default] places when it is called
    without decimals. *)
Definition formatting_with (default : nat) : Collaborators Q string :=
  collaborators default
    (Resolved receipt_21000) (Resolved true) (Resolved claimed) (Resolved tt).

(** The formatter leaves a value formatted without decimals as it is. *)
Definition happy : Collaborators Q string := formatting_with 0.

(** The bet reverts on chain; the round is not claimable. *)
Definition reverting : Collaborators Q string :=
  collaborators 0 (Resolved receipt_reverted) (Resolved false) (Resolved claimed) (Resolved tt).

(** The contract client is unreachable. *)
Definition offline : Collaborators Q string :=
  collaborators 0 (Rejected "network"%string) (Rejected "network"%string)
    (Rejected "network"%string) (Resolved tt).

(** The history store refuses the write; the claim fails. *)
Definition failing : Collaborators Q string :=
  collaborators 0 (Resolved receipt_21000) (Resolved true) (Rejected "claim"%string)
    (Rejected "disk"%string).

Definition world (simulation claim_rewards : bool) : World Q :=
  {| GLOBAL_CONFIG := {| SIMULATION_MODE := simulation; CLAIM_REWARDS := claim_rewards |};
     configuredBetAmount := 3%Q;
     simulationBalance := 100%Q;
     history := [];
     calls := [] |}.

(** Round 157572. *)
Definition epoch : Q := inject_Z 157572.

(** The world after a bet up that reverted, in simulation mode, and after
    a bet down that went through, outside simulation mode. *)
Definition after_reverted_bet_up : World Q :=
  snd (run (strategy reverting BET_UP epoch) (world true true)).

Definition after_bet_down : World Q :=
  snd (run (strategy happy BET_DOWN epoch) (world false true)).

Definition after_bet_up : World Q :=
  snd (run (strategy happy BET_UP epoch) (world false true)).

(** Two numbers agree to [digits] decimal places: they differ by at most
    half a unit of the last place. *)
Definition agree_to (digits : nat) (x y : Q) : Prop :=
  (Qabs (x - y) <= 1 # Z.to_pos (2 * 10 ^ Z.of_nat digits))%Q.

(** 0.0000001050, the fee the specification gives for [receipt_21000]. *)
Definition stated_fee : Q := (1050 # 10000000000)%Q.

(** What lines 78-80 compute on [receipt_21000] under [formatting_with]. *)
Definition fee_with_default (default : nat) : Q :=
  Qred (Qred (inject_Z 21000 / inject_Z (10 ^ Z.of_nat default)) *
        Qred (inject_Z 5000000000 / inject_Z (10 ^ Z.of_nat default)) /
        inject_Z (10 ^ 18)).




(** A receipt with neither the exception flag nor the gas fields. *)
Definition receipt_bare : TxReceipt Q :=
  {| status := 1;
     gasUsed := None;
     effectiveGasPrice := None;
     transactionExeption := None |}.

(** The bet settles with [receipt_bare]. *)
Definition bare : Collaborators Q string :=
  collaborators 0 (Resolved receipt_bare) (Resolved true) (Resolved claimed) (Resolved tt).

(** The submission of the bet threw. *)
Definition throwing : Collaborators Q string :=
  collaborators 0 (Resolved receipt_exception) (Resolved true) (Resolved claimed)
    (Resolved tt).

(** The submission of the bet threw and the formatter refuses everything. *)
Definition unformattable : Collaborators Q string :=
  {| parseFromUsdToCrypto := fun usd => (usd / 300)%Q;
     parseFeeFromCryptoToUsd := fun fee => (fee * 300)%Q;
     formatUnit := fun _ _ => Rejected "format"%string;
     reply_betDown := fun _ _ => Resolved receipt_exception;
     reply_betUp := fun _ _ => Resolved receipt_exception;
     reply_isClaimableRound := fun _ => Resolved true;
     reply_claimRewards := fun _ => Resolved claimed;
     reply_saveRoundInHistory := fun _ => Resolved tt |}.

End Sample.

(** * Properties *)

(** In a run that resolved, the next call that could have rejected did not:
    name what it resolved with and drop the other case. *)
Tactic Notation "next_reply" hyp(Hrun) "as" ident(x) :=
  match type of Hrun with
  | context [match ?c with Resolved _ => _ | Rejected _ => _ end] =>
      let e := fresh "e" in
      let H := fresh "H" x in
      destruct c as [x | e] eqn:H; simpl in Hrun; [| discriminate Hrun]
  end.

Section Properties.

Context (num exn : Type) {arith : JsArith num}.
Variable C : Collaborators num exn.

(** ** parseTransactionReceipt *)

(** C1.  On a receipt whose [transactionExeption] is false (or missing),
    the result has [betExecuted] equal to [status === 1] and [txGasFee]
    equal to the product of the formatted gas used and the formatted gas
    price, formatted again with ["18"]: both operands are formatted before
    they are multiplied.  [status] plays no part in the fee, so a receipt
    with status 0 gets the same fee as one with status 1. *)
Theorem parseTransactionReceipt_fee
    (txReceipt : TxReceipt num) (gas price fee : num) :
  truthy txReceipt.(transactionExeption) = false ->
  C.(formatUnit) txReceipt.(gasUsed) None = Resolved gas ->
  C.(formatUnit) txReceipt.(effectiveGasPrice) None = Resolved price ->
  C.(formatUnit) (Some (mul gas price)) (Some "18"%string) = Resolved fee ->
  parseTransactionReceipt C txReceipt =
    Resolved {| betExecuted := txReceipt.(status) =? 1; txGasFee := fee |}.
Proof.
  intros Hexn Hgas Hprice Hfee.
  unfold parseTransactionReceipt.
  rewrite Hexn, Hgas. simpl.
  rewrite Hprice. simpl.
  rewrite Hfee. reflexivity.
Qed.

(** C2.  On a receipt whose [transactionExeption] is true the fee is [0]
    and [betExecuted] is [status === 1], whatever the gas fields hold and
    whatever the formatter would do with them. *)
Theorem parseTransactionReceipt_exception (txReceipt : TxReceipt num) :
  truthy txReceipt.(transactionExeption) = true ->
  parseTransactionReceipt C txReceipt =
    Resolved {| betExecuted := txReceipt.(status) =? 1; txGasFee := zero |}.
Proof.
  intros Hexn. unfold parseTransactionReceipt.
  rewrite Hexn. reflexivity.
Qed.


(** ** The bet strategies *)

(** The world a bet strategy leaves when it runs to its end. *)
Lemma strategy_resolved (direction : Bet) (epoch : num) (w : World num)
    (txReceipt : TxReceipt num) (transaction : Outcome num) (round : num) :
  reply_bet C direction (cryptoBetAmount C w) epoch = Resolved txReceipt ->
  parseTransactionReceipt C txReceipt = Resolved transaction ->
  C.(formatUnit) (Some epoch) None = Resolved round ->
  C.(reply_saveRoundInHistory)
    [bet_record direction round (cryptoBetAmount C w) transaction] = Resolved tt ->
  run (strategy C direction epoch) w =
    (Resolved transaction.(betExecuted),
     {| GLOBAL_CONFIG := w.(GLOBAL_CONFIG);
        configuredBetAmount := w.(configuredBetAmount);
        simulationBalance :=
          if w.(GLOBAL_CONFIG).(SIMULATION_MODE) then
            sub (sub w.(simulationBalance) w.(configuredBetAmount))
                (C.(parseFeeFromCryptoToUsd) transaction.(txGasFee))
          else w.(simulationBalance);
        history :=
          w.(history) ++ [bet_record direction round (cryptoBetAmount C w) transaction];
        calls :=
          w.(calls) ++
          call_bet direction (cryptoBetAmount C w) epoch ::
          ledger_calls C w transaction ++
          [call_saveRoundInHistory
             [bet_record direction round (cryptoBetAmount C w) transaction]] |}).
Proof.
  intros Hbet Hparse Hround Hsave.
  unfold cryptoBetAmount, bet_record, ledger_calls in *.
  destruct direction; simpl in Hbet; simpl;
    rewrite Hbet, Hparse; simpl;
    destruct (SIMULATION_MODE (GLOBAL_CONFIG w)); simpl;
    rewrite Hround; simpl; rewrite Hsave;
    unfold store, log, set_balance; simpl;
    repeat rewrite <- app_assoc; reflexivity.
Qed.

(** Conversely, a bet strategy only runs to its end when the bet, the
    parsing of its receipt, the formatting of the epoch and the history
    write all went through. *)
Lemma strategy_resolved_inv (direction : Bet) (epoch : num) (w w' : World num)
    (executed : bool) :
  run (strategy C direction epoch) w = (Resolved executed, w') ->
  exists (txReceipt : TxReceipt num) (transaction : Outcome num) (round : num),
    reply_bet C direction (cryptoBetAmount C w) epoch = Resolved txReceipt /\
    parseTransactionReceipt C txReceipt = Resolved transaction /\
    C.(formatUnit) (Some epoch) None = Resolved round /\
    C.(reply_saveRoundInHistory)
      [bet_record direction round (cryptoBetAmount C w) transaction] = Resolved tt.
Proof.
  intros Hrun.
  unfold cryptoBetAmount, bet_record.
  destruct direction; simpl in Hrun |- *.
  - next_reply Hrun as txReceipt. next_reply Hrun as transaction.
    exists txReceipt, transaction.
    destruct (SIMULATION_MODE (GLOBAL_CONFIG w)); simpl in Hrun;
      next_reply Hrun as round; exists round; next_reply Hrun as saved;
      destruct saved; auto.
  - next_reply Hrun as txReceipt. next_reply Hrun as transaction.
    exists txReceipt, transaction.
    destruct (SIMULATION_MODE (GLOBAL_CONFIG w)); simpl in Hrun;
      next_reply Hrun as round; exists round; next_reply Hrun as saved;
      destruct saved; auto.
Qed.

(** Outside simulation mode a bet strategy leaves the simulated wallet
    alone, however the run ends. *)
Lemma strategy_real_mode (direction : Bet) (epoch : num) (w : World num) :
  w.(GLOBAL_CONFIG).(SIMULATION_MODE) = false ->
  simulationBalance (snd (run (strategy C direction epoch) w)) = w.(simulationBalance) /\
  filter is_ledger_call (calls (snd (run (strategy C direction epoch) w))) =
    filter is_ledger_call w.(calls).
Proof.
  intros Hsim.
  destruct direction; simpl; rewrite Hsim;
    repeat
      (match goal with
       | |- context [match ?c with Resolved _ => _ | Rejected _ => _ end] =>
           destruct c; simpl
       end);
    repeat rewrite filter_app; simpl; repeat rewrite app_nil_r; auto.
Qed.

(** C3.  Take a run of either bet strategy from a world [w].  In simulation
    mode, if the run resolves, the balance it leaves is the balance of [w]
    minus the configured bet amount minus the fiat value of the fee of the
    parsed receipt, whether or not the bet was executed.  Outside simulation
    mode the balance is unchanged and no call to the simulated wallet
    (neither [getSimulationBalance] nor [updateSimulationBalance]) is
    made. *)
Theorem simulated_balance_after_bet (direction : Bet) (epoch : num)
    (w w' : World num) (settled : Completion exn bool) :
  run (strategy C direction epoch) w = (settled, w') ->
  (w.(GLOBAL_CONFIG).(SIMULATION_MODE) = true ->
   forall executed : bool, settled = Resolved executed ->
   exists (txReceipt : TxReceipt num) (transaction : Outcome num),
     reply_bet C direction (cryptoBetAmount C w) epoch = Resolved txReceipt /\
     parseTransactionReceipt C txReceipt = Resolved transaction /\
     executed = transaction.(betExecuted) /\
     w'.(simulationBalance) =
       sub (sub w.(simulationBalance) w.(configuredBetAmount))
           (C.(parseFeeFromCryptoToUsd) transaction.(txGasFee))) /\
  (w.(GLOBAL_CONFIG).(SIMULATION_MODE) = false ->
   w'.(simulationBalance) = w.(simulationBalance) /\
   filter is_ledger_call w'.(calls) = filter is_ledger_call w.(calls)).
Proof.
  intros Hrun. split.
  - intros Hsim executed ->.
    destruct (strategy_resolved_inv _ _ _ Hrun)
      as (txReceipt & transaction & round & Hbet & Hparse & Hround & Hsave).
    rewrite (strategy_resolved _ _ _ Hbet Hparse Hround Hsave) in Hrun.
    rewrite Hsim in Hrun. inversion Hrun; subst; clear Hrun.
    exists txReceipt, transaction. simpl. auto.
  - intros Hsim.
    replace w' with (snd (run (strategy C direction epoch) w))
      by (rewrite Hrun; reflexivity).
    apply strategy_real_mode. exact Hsim.
Qed.

(** C4.  A run of either bet strategy that resolves has made, after the
    calls already in the log: the contract call for its direction, then the
    calls to the simulated wallet (if any), then one call to
    [saveRoundInHistory], in this order and nothing else.  The history call
    carries a one-element list; its record has the formatted epoch as
    [round], the crypto amount sent to the contract as [betAmount], the
    direction of the strategy as [bet], and the two fields of the parsed
    receipt.  That record is what the history gains.  None of this depends
    on [betExecuted]. *)
Theorem history_written_once (direction : Bet) (epoch : num)
    (w w' : World num) (executed : bool) :
  run (strategy C direction epoch) w = (Resolved executed, w') ->
  exists (txReceipt : TxReceipt num) (transaction : Outcome num) (round : num),
    reply_bet C direction (cryptoBetAmount C w) epoch = Resolved txReceipt /\
    parseTransactionReceipt C txReceipt = Resolved transaction /\
    C.(formatUnit) (Some epoch) None = Resolved round /\
    executed = transaction.(betExecuted) /\
    w'.(calls) =
      w.(calls) ++
      call_bet direction (cryptoBetAmount C w) epoch ::
      ledger_calls C w transaction ++
      [call_saveRoundInHistory
         [bet_record direction round (cryptoBetAmount C w) transaction]] /\
    List.length (filter is_history_call w'.(calls)) =
      S (List.length (filter is_history_call w.(calls))) /\
    w'.(history) =
      w.(history) ++ [bet_record direction round (cryptoBetAmount C w) transaction].
Proof.
  intros Hrun.
  destruct (strategy_resolved_inv _ _ _ Hrun)
    as (txReceipt & transaction & round & Hbet & Hparse & Hround & Hsave).
  rewrite (strategy_resolved _ _ _ Hbet Hparse Hround Hsave) in Hrun.
  inversion Hrun; subst; clear Hrun.
  exists txReceipt, transaction, round. simpl.
  repeat split; auto.
  rewrite filter_app, List.length_app. simpl.
  assert (Hbetcall :
            is_history_call (call_bet direction (cryptoBetAmount C w) epoch) = false)
    by (destruct direction; reflexivity).
  rewrite Hbetcall, filter_app, List.length_app.
  assert (Hledger : filter is_history_call (ledger_calls C w transaction) = [])
    by (unfold ledger_calls; destruct (SIMULATION_MODE (GLOBAL_CONFIG w)); reflexivity).
  rewrite Hledger. simpl. lia.
Qed.

(** C10.  From the same world and for the same epoch, when [betDown] and
    [betUp] hand back the same receipt and both strategies run to their
    end, they return the same boolean and leave the same simulated balance;
    the records they add to the history, and the calls they log, are the
    same except for the direction: the [bet] field is [BET_DOWN] in one and
    [BET_UP] in the other, and the contract call is [betDown] in one and
    [betUp] in the other. *)
Theorem bet_strategies_agree (epoch : num) (w w_down w_up : World num)
    (txReceipt : TxReceipt num) (down up : bool) :
  C.(reply_betDown) (cryptoBetAmount C w) epoch = Resolved txReceipt ->
  C.(reply_betUp) (cryptoBetAmount C w) epoch = Resolved txReceipt ->
  run (betDownStrategy C epoch) w = (Resolved down, w_down) ->
  run (betUpStrategy C epoch) w = (Resolved up, w_up) ->
  down = up /\
  w_down.(simulationBalance) = w_up.(simulationBalance) /\
  exists (transaction : Outcome num) (round : num),
    parseTransactionReceipt C txReceipt = Resolved transaction /\
    w_down.(history) =
      w.(history) ++ [bet_record BET_DOWN round (cryptoBetAmount C w) transaction] /\
    w_up.(history) =
      w.(history) ++ [bet_record BET_UP round (cryptoBetAmount C w) transaction] /\
    w_down.(calls) =
      w.(calls) ++
      call_betDown (cryptoBetAmount C w) epoch ::
      ledger_calls C w transaction ++
      [call_saveRoundInHistory
         [bet_record BET_DOWN round (cryptoBetAmount C w) transaction]] /\
    w_up.(calls) =
      w.(calls) ++
      call_betUp (cryptoBetAmount C w) epoch ::
      ledger_calls C w transaction ++
      [call_saveRoundInHistory
         [bet_record BET_UP round (cryptoBetAmount C w) transaction]].
Proof.
  intros Hdown Hup Hrun_down Hrun_up.
  destruct (strategy_resolved_inv BET_DOWN _ _ Hrun_down)
    as (r1 & t1 & round1 & Hbet1 & Hparse1 & Hround1 & Hsave1).
  destruct (strategy_resolved_inv BET_UP _ _ Hrun_up)
    as (r2 & t2 & round2 & Hbet2 & Hparse2 & Hround2 & Hsave2).
  simpl in Hbet1, Hbet2.
  assert (r1 = txReceipt) by congruence.
  assert (r2 = txReceipt) by congruence.
  subst r1 r2.
  assert (t2 = t1) by congruence.
  assert (round2 = round1) by congruence.
  subst t2 round2.
  change (betDownStrategy C epoch) with (strategy C BET_DOWN epoch) in Hrun_down.
  change (betUpStrategy C epoch) with (strategy C BET_UP epoch) in Hrun_up.
  rewrite (strategy_resolved BET_DOWN _ _ Hdown Hparse1 Hround1 Hsave1) in Hrun_down.
  rewrite (strategy_resolved BET_UP _ _ Hup Hparse1 Hround1 Hsave2) in Hrun_up.
  inversion Hrun_down; subst; clear Hrun_down.
  inversion Hrun_up; subst; clear Hrun_up.
  simpl. repeat split; auto.
  exists t1, round1. repeat split; auto.
Qed.

(** ** claimStrategy *)

(** C5.  With [CLAIM_REWARDS] false the strategy resolves with the literal
    [{ status: 0, txGasFee: 0 }] and leaves the world, call log included,
    exactly as it was: [isClaimableRound] is not called, whatever it would
    have answered.  With [CLAIM_REWARDS] true and a claimability check that
    answers false, the result is the same literal and the only call made is
    that check: [claimRewards] is not called. *)
Theorem claim_skipped (epoch : num) (w : World num) :
  (w.(GLOBAL_CONFIG).(CLAIM_REWARDS) = false ->
   run (claimStrategy C epoch) w = (Resolved no_claim, w)) /\
  (w.(GLOBAL_CONFIG).(CLAIM_REWARDS) = true ->
   C.(reply_isClaimableRound) epoch = Resolved false ->
   run (claimStrategy C epoch) w =
     (Resolved no_claim, log (call_isClaimableRound epoch) w)).
Proof.
  split.
  - intros Hflag. simpl. rewrite Hflag. reflexivity.
  - intros Hflag Hclaimable. simpl. rewrite Hflag. simpl.
    rewrite Hclaimable. reflexivity.
Qed.

(** C6.  With [CLAIM_REWARDS] true and a claimability check that answers
    true, the strategy calls [isClaimableRound] with the epoch, then
    [claimRewards] once with the one-element list [[epoch]], and settles as
    that call settled: the object it resolved with is returned as it is. *)
Theorem claim_forwarded (epoch : num) (w : World num) :
  w.(GLOBAL_CONFIG).(CLAIM_REWARDS) = true ->
  C.(reply_isClaimableRound) epoch = Resolved true ->
  run (claimStrategy C epoch) w =
    (C.(reply_claimRewards) [epoch],
     log (call_claimRewards [epoch]) (log (call_isClaimableRound epoch) w)).
Proof.
  intros Hflag Hclaimable. simpl. rewrite Hflag. simpl.
  rewrite Hclaimable. simpl.
  destruct (reply_claimRewards C [epoch]); reflexivity.
Qed.

(** ** Rejections *)

(** C7.  A rejection of a collaborator is the rejection of the strategy,
    with the same error and after a single attempt:
    - when the bet call rejects, the only thing the strategy has done is
      that call: the balance and the history are those of the start, and
      neither the simulated wallet nor the history store was called;
    - when the history write rejects, the strategy rejects after the bet
      call, the wallet calls of simulation mode and that one write;
    - when the claimability check rejects, [claimRewards] is not called;
    - when the claim rejects, so does the strategy. *)
Theorem rejections_propagate (direction : Bet) (epoch : num) (w : World num) (e : exn) :
  (reply_bet C direction (cryptoBetAmount C w) epoch = Rejected e ->
   run (strategy C direction epoch) w =
     (Rejected e, log (call_bet direction (cryptoBetAmount C w) epoch) w) /\
   simulationBalance (log (call_bet direction (cryptoBetAmount C w) epoch) w) =
     w.(simulationBalance) /\
   history (log (call_bet direction (cryptoBetAmount C w) epoch) w) = w.(history)) /\
  (forall (txReceipt : TxReceipt num) (transaction : Outcome num) (round : num),
   reply_bet C direction (cryptoBetAmount C w) epoch = Resolved txReceipt ->
   parseTransactionReceipt C txReceipt = Resolved transaction ->
   C.(formatUnit) (Some epoch) None = Resolved round ->
   C.(reply_saveRoundInHistory)
     [bet_record direction round (cryptoBetAmount C w) transaction] = Rejected e ->
   exists w' : World num,
     run (strategy C direction epoch) w = (Rejected e, w') /\
     w'.(calls) =
       w.(calls) ++
       call_bet direction (cryptoBetAmount C w) epoch ::
       ledger_calls C w transaction ++
       [call_saveRoundInHistory
          [bet_record direction round (cryptoBetAmount C w) transaction]] /\
     w'.(history) = w.(history)) /\
  (w.(GLOBAL_CONFIG).(CLAIM_REWARDS) = true ->
   C.(reply_isClaimableRound) epoch = Rejected e ->
   run (claimStrategy C epoch) w =
     (Rejected e, log (call_isClaimableRound epoch) w)) /\
  (w.(GLOBAL_CONFIG).(CLAIM_REWARDS) = true ->
   C.(reply_isClaimableRound) epoch = Resolved true ->
   C.(reply_claimRewards) [epoch] = Rejected e ->
   run (claimStrategy C epoch) w =
     (Rejected e,
      log (call_claimRewards [epoch]) (log (call_isClaimableRound epoch) w))).
Proof.
  split; [| split; [| split]].
  - intros Hbet. unfold cryptoBetAmount in *.
    destruct direction; simpl in Hbet |- *; rewrite Hbet; auto.
  - intros txReceipt transaction round Hbet Hparse Hround Hsave.
    unfold cryptoBetAmount, bet_record, ledger_calls in *.
    destruct direction; simpl in Hbet; simpl;
      rewrite Hbet, Hparse; simpl;
      destruct (SIMULATION_MODE (GLOBAL_CONFIG w)); simpl;
      rewrite Hround; simpl; rewrite Hsave;
      eexists; (split; [reflexivity |]); simpl;
      repeat rewrite <- app_assoc; auto.
  - intros Hflag Hclaimable. simpl. rewrite Hflag. simpl.
    rewrite Hclaimable. reflexivity.
  - intros Hflag Hclaimable Hclaim. simpl. rewrite Hflag. simpl.
    rewrite Hclaimable. simpl. rewrite Hclaim. reflexivity.
Qed.

End Properties.

(** * The properties on concrete runs *)

(** The fee of a reverted transaction: status 0, and still 0.000105. *)
Lemma parseTransactionReceipt_fee_witness :
  parseTransactionReceipt Sample.happy Sample.receipt_reverted =
    Resolved {| betExecuted := false; txGasFee := (21 # 200000)%Q |}.
Proof.
  apply (parseTransactionReceipt_fee Sample.happy Sample.receipt_reverted
           (gas := inject_Z 21000) (price := inject_Z 5000000000));
    reflexivity.
Defined.

(** The receipt of a submission that threw has no fee. *)
Lemma parseTransactionReceipt_exception_witness :
  parseTransactionReceipt Sample.happy Sample.receipt_exception =
    Resolved {| betExecuted := false; txGasFee := 0%Q |}.
Proof.
  exact (parseTransactionReceipt_exception Sample.happy Sample.receipt_exception
           eq_refl).
Defined.



(** A reverted bet up in simulation mode still costs the stake and the
    fee; a bet down outside simulation mode leaves the balance at 100. *)
Lemma simulated_balance_after_bet_witness :
  (exists (txReceipt : TxReceipt Q) (transaction : Outcome Q),
     reply_bet Sample.reverting BET_UP
       (cryptoBetAmount Sample.reverting (Sample.world true true)) Sample.epoch =
       Resolved txReceipt /\
     parseTransactionReceipt Sample.reverting txReceipt = Resolved transaction /\
     false = transaction.(betExecuted) /\
     simulationBalance
       (snd (run (strategy Sample.reverting BET_UP Sample.epoch) (Sample.world true true))) =
       sub (sub 100%Q 3%Q)
           (parseFeeFromCryptoToUsd Sample.reverting transaction.(txGasFee))) /\
  simulationBalance
    (snd (run (strategy Sample.happy BET_DOWN Sample.epoch) (Sample.world false true))) =
    100%Q.
Proof.
  split.
  - refine (proj1
              (simulated_balance_after_bet Sample.reverting BET_UP Sample.epoch
                 (Sample.world true true) (settled := Resolved false) _)
              _ false _); reflexivity.
  - refine (proj1
              (proj2
                 (simulated_balance_after_bet Sample.happy BET_DOWN Sample.epoch
                    (Sample.world false true) (settled := Resolved true) _)
                 _)); reflexivity.
Defined.

(** The reverted bet up is saved, after the wallet update. *)
Lemma history_written_once_witness :
  exists (txReceipt : TxReceipt Q) (transaction : Outcome Q) (round : Q),
    reply_bet Sample.reverting BET_UP
      (cryptoBetAmount Sample.reverting (Sample.world true true)) Sample.epoch =
      Resolved txReceipt /\
    parseTransactionReceipt Sample.reverting txReceipt = Resolved transaction /\
    formatUnit Sample.reverting (Some Sample.epoch) None = Resolved round /\
    false = transaction.(betExecuted) /\
    calls Sample.after_reverted_bet_up =
      calls (Sample.world true true) ++
      call_bet BET_UP (cryptoBetAmount Sample.reverting (Sample.world true true))
        Sample.epoch ::
      ledger_calls Sample.reverting (Sample.world true true) transaction ++
      [call_saveRoundInHistory
         [bet_record BET_UP round
            (cryptoBetAmount Sample.reverting (Sample.world true true)) transaction]] /\
    List.length (filter is_history_call (calls Sample.after_reverted_bet_up)) =
      S (List.length (filter is_history_call (calls (Sample.world true true)))) /\
    history Sample.after_reverted_bet_up =
      history (Sample.world true true) ++
      [bet_record BET_UP round
         (cryptoBetAmount Sample.reverting (Sample.world true true)) transaction].
Proof.
  refine (history_written_once Sample.reverting BET_UP Sample.epoch
            (Sample.world true true) (executed := false) _).
  reflexivity.
Defined.

(** A bet down and a bet up that get the same receipt. *)
Lemma bet_strategies_agree_witness :
  true = true /\
  simulationBalance Sample.after_bet_down = simulationBalance Sample.after_bet_up /\
  exists (transaction : Outcome Q) (round : Q),
    parseTransactionReceipt Sample.happy Sample.receipt_21000 = Resolved transaction /\
    history Sample.after_bet_down =
      [] ++ [bet_record BET_DOWN round (3 / 300)%Q transaction] /\
    history Sample.after_bet_up =
      [] ++ [bet_record BET_UP round (3 / 300)%Q transaction] /\
    calls Sample.after_bet_down =
      [] ++
      call_betDown (3 / 300)%Q Sample.epoch ::
      ledger_calls Sample.happy (Sample.world false true) transaction ++
      [call_saveRoundInHistory [bet_record BET_DOWN round (3 / 300)%Q transaction]] /\
    calls Sample.after_bet_up =
      [] ++
      call_betUp (3 / 300)%Q Sample.epoch ::
      ledger_calls Sample.happy (Sample.world false true) transaction ++
      [call_saveRoundInHistory [bet_record BET_UP round (3 / 300)%Q transaction]].
Proof.
  refine (bet_strategies_agree Sample.happy Sample.epoch (Sample.world false true)
            (txReceipt := Sample.receipt_21000) (down := true) (up := true) _ _ _ _);
    reflexivity.
Defined.

(** Claiming switched off with an unreachable contract client, and
    claiming switched on for a round that is not claimable. *)
Lemma claim_skipped_witness :
  run (claimStrategy Sample.offline Sample.epoch) (Sample.world true false) =
    (Resolved no_claim, Sample.world true false) /\
  run (claimStrategy Sample.reverting Sample.epoch) (Sample.world true true) =
    (Resolved no_claim, log (call_isClaimableRound Sample.epoch) (Sample.world true true)).
Proof.
  split.
  - exact (proj1 (claim_skipped Sample.offline Sample.epoch (Sample.world true false))
             eq_refl).
  - exact (proj2 (claim_skipped Sample.reverting Sample.epoch (Sample.world true true))
             eq_refl eq_refl).
Defined.

(** A claimable round is claimed and the claim's result handed on. *)
Lemma claim_forwarded_witness :
  run (claimStrategy Sample.happy Sample.epoch) (Sample.world true true) =
    (Resolved Sample.claimed,
     log (call_claimRewards [Sample.epoch])
       (log (call_isClaimableRound Sample.epoch) (Sample.world true true))).
Proof.
  exact (claim_forwarded Sample.happy Sample.epoch (Sample.world true true)
           eq_refl eq_refl).
Defined.

(** An unreachable contract client, a history store that refuses the
    write and a claim that fails. *)
Lemma rejections_propagate_witness :
  run (strategy Sample.offline BET_DOWN Sample.epoch) (Sample.world true true) =
    (Rejected "network"%string,
     log (call_betDown (3 / 300)%Q Sample.epoch) (Sample.world true true)) /\
  (exists w' : World Q,
     run (strategy Sample.failing BET_UP Sample.epoch) (Sample.world true true) =
       (Rejected "disk"%string, w') /\
     history w' = []) /\
  run (claimStrategy Sample.offline Sample.epoch) (Sample.world true true) =
    (Rejected "network"%string,
     log (call_isClaimableRound Sample.epoch) (Sample.world true true)) /\
  run (claimStrategy Sample.failing Sample.epoch) (Sample.world true true) =
    (Rejected "claim"%string,
     log (call_claimRewards [Sample.epoch])
       (log (call_isClaimableRound Sample.epoch) (Sample.world true true))).
Proof.
  split; [| split; [| split]].
  - exact (proj1
             (proj1 (rejections_propagate Sample.offline BET_DOWN Sample.epoch
                       (Sample.world true true) "network"%string)
                eq_refl)).
  - assert (Hsave :
              exists w' : World Q,
                run (strategy Sample.failing BET_UP Sample.epoch) (Sample.world true true) =
                  (Rejected "disk"%string, w') /\
                calls w' = _ /\ history w' = [])
      by (refine (proj1 (proj2 (rejections_propagate Sample.failing BET_UP Sample.epoch
                                  (Sample.world true true) "disk"%string))
                    Sample.receipt_21000
                    {| betExecuted := true; txGasFee := (21 # 200000)%Q |}
                    Sample.epoch _ _ _ _); reflexivity).
    destruct Hsave as (w' & Hrun & _ & Hhistory).
    exists w'. split; [exact Hrun | exact Hhistory].
  - exact (proj1 (proj2 (proj2
             (rejections_propagate Sample.offline BET_DOWN Sample.epoch
                (Sample.world true true) "network"%string)))
             eq_refl eq_refl).
  - exact (proj2 (proj2 (proj2
             (rejections_propagate Sample.failing BET_DOWN Sample.epoch
                (Sample.world true true) "claim"%string)))
             eq_refl eq_refl eq_refl).
Defined.

(** ** The example receipt *)

Lemma parse_receipt_21000 (default : nat) :
  parseTransactionReceipt (Sample.formatting_with default) Sample.receipt_21000 =
    Resolved {| betExecuted := true; txGasFee := Sample.fee_with_default default |}.
Proof.
  apply (parseTransactionReceipt_fee
           (Sample.formatting_with default) Sample.receipt_21000
           (gas := Qred (inject_Z 21000 / inject_Z (10 ^ Z.of_nat default)))
           (price := Qred (inject_Z 5000000000 / inject_Z (10 ^ Z.of_nat default))));
    reflexivity.
Qed.

(** The fee is 21000 * 5e9 / 10^18 = 0.000105, divided once more by
    10^default for each of the two operands. *)
Lemma fee_with_default_scaled (default : nat) :
  (Sample.fee_with_default default *
   (inject_Z (10 ^ Z.of_nat default) * inject_Z (10 ^ Z.of_nat default)) ==
   105 # 1000000)%Q.
Proof.
  unfold Sample.fee_with_default.
  set (P := inject_Z (10 ^ Z.of_nat default)).
  assert (HP : (0 < P)%Q).
  { unfold P. change 0%Q with (inject_Z 0). rewrite <- Zlt_Qlt.
    apply Z.pow_pos_nonneg; lia. }
  rewrite !Qred_correct.
  change (inject_Z (10 ^ 18)) with (1000000000000000000 # 1)%Q.
  change (inject_Z 21000) with (21000 # 1)%Q.
  change (inject_Z 5000000000) with (5000000000 # 1)%Q.
  field. intros H. rewrite H in HP. discriminate.
Qed.

(** Whatever the default, the fee is not 0.0000001050 to ten places: it is
    0.000105 for 0, 0.00000105 for 1 and at most 0.0000000105 from 2 on. *)
Lemma fee_never_as_stated (default : nat) :
  ~ Sample.agree_to 10 (Sample.fee_with_default default) Sample.stated_fee.
Proof.
  unfold Sample.agree_to, Sample.stated_fee.
  change (1 # Z.to_pos (2 * 10 ^ Z.of_nat 10))%Q with (1 # 20000000000)%Q.
  pose proof (fee_with_default_scaled default) as Hscaled.
  destruct default as [| [| d]].
  - vm_compute. intros H. apply H. reflexivity.
  - vm_compute. intros H. apply H. reflexivity.
  - set (f := Sample.fee_with_default (S (S d))) in *.
    set (P := inject_Z (10 ^ Z.of_nat (S (S d)))) in *.
    assert (HP : (100 <= P)%Q).
    { unfold P. change 100%Q with (inject_Z 100). rewrite <- Zle_Qle.
      rewrite !Nat2Z.inj_succ, !Z.pow_succ_r by lia.
      assert (0 < 10 ^ Z.of_nat d)%Z by (apply Z.pow_pos_nonneg; lia). lia. }
    intros Habs.
    apply Qabs_Qle_condition in Habs. destruct Habs as [Hlow _].
    clearbody f P.
    assert (HPP : (10000 <= P * P)%Q) by nra.
    assert (Hf : (0 < f)%Q) by lra.
    nra.
Qed.

(** C9 as stated does not hold: the fee of the example receipt is not
    0.0000001050 to ten decimal places. *)
Lemma example_fee_not_as_stated :
  ~ exists transaction : Outcome Q,
      parseTransactionReceipt Sample.happy Sample.receipt_21000 = Resolved transaction /\
      transaction.(betExecuted) = true /\
      Sample.agree_to 10 transaction.(txGasFee) Sample.stated_fee.
Proof.
  intros (transaction & Hparse & _ & Hagree).
  unfold Sample.happy in Hparse. rewrite parse_receipt_21000 in Hparse.
  inversion Hparse; subst; clear Hparse.
  exact (fee_never_as_stated 0 Hagree).
Qed.

(** C9, amended.  On the receipt with status 1, 21000 gas used, a gas price
    of 5e9 and no exception, [betExecuted] is true and the fee is
    21000 * 5e9 / 10^18 = 0.000105, a thousand times 0.0000001050, when the
    formatter leaves a value formatted without decimals as it is.  With a formatter that moves the
    decimal point by [default] places in that case, the fee is that number
    divided by 10^default twice, and for no [default] is it 0.0000001050. *)
Theorem example_fee :
  parseTransactionReceipt Sample.happy Sample.receipt_21000 =
    Resolved {| betExecuted := true; txGasFee := (21 # 200000)%Q |} /\
  Sample.agree_to 10 (21 # 200000)%Q (105 # 1000000)%Q /\
  (21 # 200000 == 1000 * Sample.stated_fee)%Q /\
  forall default : nat,
    parseTransactionReceipt (Sample.formatting_with default) Sample.receipt_21000 =
      Resolved {| betExecuted := true; txGasFee := Sample.fee_with_default default |} /\
    (Sample.fee_with_default default *
     (inject_Z (10 ^ Z.of_nat default) * inject_Z (10 ^ Z.of_nat default)) ==
     105 # 1000000)%Q /\
    ~ Sample.agree_to 10 (Sample.fee_with_default default) Sample.stated_fee.
Proof.
  split; [| split; [| split]].
  - reflexivity.
  - unfold Sample.agree_to. vm_compute. discriminate.
  - reflexivity.
  - intros default. split; [| split].
    + apply parse_receipt_21000.
    + apply fee_with_default_scaled.
    + apply fee_never_as_stated.
Qed.

(** * Further properties of the strategies *)

Section Failures.

Context (num exn : Type) {arith : JsArith num}.
Variable C : Collaborators num exn.

(** X1.  [parseTransactionReceipt] throws exactly when the receipt is not
    flagged as an exception and one of its three [formatUnit] calls throws;
    the error is that of the first call that throws, in the order gas used,
    gas price, product. *)
Theorem parseTransactionReceipt_throws (txReceipt : TxReceipt num) (e : exn) :
  parseTransactionReceipt C txReceipt = Rejected e <->
  truthy txReceipt.(transactionExeption) = false /\
  (C.(formatUnit) txReceipt.(gasUsed) None = Rejected e \/
   (exists gas : num,
      C.(formatUnit) txReceipt.(gasUsed) None = Resolved gas /\
      C.(formatUnit) txReceipt.(effectiveGasPrice) None = Rejected e) \/
   (exists gas price : num,
      C.(formatUnit) txReceipt.(gasUsed) None = Resolved gas /\
      C.(formatUnit) txReceipt.(effectiveGasPrice) None = Resolved price /\
      C.(formatUnit) (Some (mul gas price)) (Some "18"%string) = Rejected e)).
Proof.
  unfold parseTransactionReceipt.
  destruct (truthy (transactionExeption txReceipt)).
  - split; [discriminate | intros [Hflag _]; discriminate].
  - destruct (formatUnit C (gasUsed txReceipt) None) as [gas | e1]; simpl.
    + destruct (formatUnit C (effectiveGasPrice txReceipt) None) as [price | e2]; simpl.
      * destruct (formatUnit C (Some (mul gas price)) (Some "18"%string))
          as [fee | e3] eqn:Hfee; simpl.
        -- split; [discriminate |].
           intros [_ [H | [(g & _ & H) | (g & p & Hg & Hp & H)]]];
             try discriminate.
           inversion Hg; inversion Hp; subst. congruence.
        -- split.
           ++ intros H. split; [reflexivity |]. right. right.
              exists gas, price. repeat split; congruence.
           ++ intros [_ [H | [(g & _ & H) | (g & p & Hg & Hp & H)]]];
                try discriminate.
              inversion Hg; inversion Hp; subst. congruence.
      * split.
        -- intros H. split; [reflexivity |]. right. left.
           exists gas. split; congruence.
        -- intros [_ [H | [(g & _ & H) | (g & p & _ & H & _)]]];
             try discriminate. congruence.
    + split.
      * intros H. split; [reflexivity |]. left. congruence.
      * intros [_ [H | [(g & H & _) | (g & p & H & _)]]];
          try discriminate. congruence.
Qed.

(** X2.  When the receipt of a bet cannot be parsed, the strategy rejects
    with the parser's error straight after the contract call: the bet has
    been sent, but the simulated wallet is not called and nothing is saved
    to the history. *)
Theorem unparsed_receipt_stops_strategy (direction : Bet) (epoch : num)
    (w : World num) (txReceipt : TxReceipt num) (e : exn) :
  reply_bet C direction (cryptoBetAmount C w) epoch = Resolved txReceipt ->
  parseTransactionReceipt C txReceipt = Rejected e ->
  run (strategy C direction epoch) w =
    (Rejected e, log (call_bet direction (cryptoBetAmount C w) epoch) w).
Proof.
  intros Hbet Hparse. unfold cryptoBetAmount in *.
  destruct direction; simpl in Hbet |- *; rewrite Hbet, Hparse; reflexivity.
Qed.

(** X3.  When [formatUnit(epoch)] throws, the strategy rejects with that
    error after the wallet update and before the history write: in
    simulation mode the balance has been debited, the history is as it was
    and [saveRoundInHistory] has not been called. *)
Theorem unformatted_epoch_stops_strategy (direction : Bet) (epoch : num)
    (w : World num) (txReceipt : TxReceipt num) (transaction : Outcome num) (e : exn) :
  reply_bet C direction (cryptoBetAmount C w) epoch = Resolved txReceipt ->
  parseTransactionReceipt C txReceipt = Resolved transaction ->
  C.(formatUnit) (Some epoch) None = Rejected e ->
  run (strategy C direction epoch) w =
    (Rejected e,
     {| GLOBAL_CONFIG := w.(GLOBAL_CONFIG);
        configuredBetAmount := w.(configuredBetAmount);
        simulationBalance := balance_after C w transaction;
        history := w.(history);
        calls :=
          w.(calls) ++
          call_bet direction (cryptoBetAmount C w) epoch ::
          ledger_calls C w transaction |}).
Proof.
  intros Hbet Hparse Hround.
  unfold cryptoBetAmount, balance_after, ledger_calls in *.
  destruct direction; simpl in Hbet |- *;
    rewrite Hbet, Hparse; simpl;
    destruct (SIMULATION_MODE (GLOBAL_CONFIG w)); simpl;
    rewrite Hround;
    unfold log, set_balance; simpl;
    repeat rewrite <- app_assoc; reflexivity.
Qed.

(** X4.  When the history write rejects, nothing is rolled back: in
    simulation mode the balance stays debited by the stake and the fee
    although no record has been stored. *)
Theorem failed_save_keeps_debit (direction : Bet) (epoch : num)
    (w : World num) (txReceipt : TxReceipt num) (transaction : Outcome num)
    (round : num) (e : exn) :
  reply_bet C direction (cryptoBetAmount C w) epoch = Resolved txReceipt ->
  parseTransactionReceipt C txReceipt = Resolved transaction ->
  C.(formatUnit) (Some epoch) None = Resolved round ->
  C.(reply_saveRoundInHistory)
    [bet_record direction round (cryptoBetAmount C w) transaction] = Rejected e ->
  fst (run (strategy C direction epoch) w) = Rejected e /\
  simulationBalance (snd (run (strategy C direction epoch) w)) =
    balance_after C w transaction /\
  history (snd (run (strategy C direction epoch) w)) = w.(history).
Proof.
  intros Hbet Hparse Hround Hsave.
  unfold cryptoBetAmount, bet_record, balance_after in *.
  destruct direction; simpl in Hbet |- *;
    rewrite Hbet, Hparse; simpl;
    destruct (SIMULATION_MODE (GLOBAL_CONFIG w)); simpl;
    rewrite Hround; simpl; rewrite Hsave; simpl; auto.
Qed.


End Failures.

Section Frames.

Context (num exn : Type) {arith : JsArith num}.
Variable C : Collaborators num exn.

(** Case analysis on every answer a run depends on. *)
Ltac every_reply :=
  repeat
    match goal with
    | |- context [match ?c with Resolved _ => _ | Rejected _ => _ end] =>
        destruct c; simpl
    | |- context [if ?b then _ else _] => destruct b; simpl
    end.

(** X6.  However a bet strategy ends, the first thing it does is the
    contract call for its own direction, with the crypto value of the
    configured amount and the epoch, and it makes no other call to the
    contract client: no second attempt, no bet in the other direction, no
    claim. *)
Theorem bet_is_placed_first_and_once (direction : Bet) (epoch : num) (w : World num) :
  exists rest : list (Call num),
    calls (snd (run (strategy C direction epoch) w)) =
      w.(calls) ++ call_bet direction (cryptoBetAmount C w) epoch :: rest /\
    forallb (fun c => negb (is_contract_call c)) rest = true.
Proof.
  unfold cryptoBetAmount.
  destruct direction; simpl; every_reply;
    unfold log, set_balance, store; simpl;
    repeat rewrite <- app_assoc; simpl;
    eexists; (split; [reflexivity | reflexivity]).
Qed.

(** X7.  However [claimStrategy] ends, it leaves the configuration, the
    simulated balance and the history as they were, also in simulation
    mode: the fee of a claim is not taken from the simulated wallet here.
    The calls it makes are none, the claimability check alone, or the check
    followed by one claim of [[epoch]]. *)
Theorem claim_leaves_wallet_and_history (epoch : num) (w : World num) :
  GLOBAL_CONFIG (snd (run (claimStrategy C epoch) w)) = w.(GLOBAL_CONFIG) /\
  simulationBalance (snd (run (claimStrategy C epoch) w)) = w.(simulationBalance) /\
  history (snd (run (claimStrategy C epoch) w)) = w.(history) /\
  exists made : list (Call num),
    calls (snd (run (claimStrategy C epoch) w)) = w.(calls) ++ made /\
    (made = [] \/
     made = [call_isClaimableRound epoch] \/
     made = [call_isClaimableRound epoch; call_claimRewards [epoch]]).
Proof.
  simpl. destruct (CLAIM_REWARDS (GLOBAL_CONFIG w)); simpl.
  - destruct (reply_isClaimableRound C epoch) as [[|] | e]; simpl.
    + destruct (reply_claimRewards C [epoch]); simpl;
        (repeat split; auto);
        exists [call_isClaimableRound epoch; call_claimRewards [epoch]];
        rewrite <- app_assoc; auto.
    + repeat split; auto. exists [call_isClaimableRound epoch]. auto.
    + repeat split; auto. exists [call_isClaimableRound epoch]. auto.
  - repeat split; auto. exists []. rewrite app_nil_r. auto.
Qed.

(** X8.  [SIMULATION_MODE] changes nothing but the wallet: from two worlds
    that differ only in that switch, a bet strategy settles the same way
    (same boolean or same error), leaves the same history and makes the
    same calls apart from those to the simulated wallet. *)
Theorem simulation_mode_only_moves_the_wallet
    (direction : Bet) (epoch : num) (w : World num) :
  fst (run (strategy C direction epoch) (with_simulation true w)) =
    fst (run (strategy C direction epoch) (with_simulation false w)) /\
  history (snd (run (strategy C direction epoch) (with_simulation true w))) =
    history (snd (run (strategy C direction epoch) (with_simulation false w))) /\
  filter (fun c => negb (is_ledger_call c))
    (calls (snd (run (strategy C direction epoch) (with_simulation true w)))) =
  filter (fun c => negb (is_ledger_call c))
    (calls (snd (run (strategy C direction epoch) (with_simulation false w)))).
Proof.
  destruct direction; simpl; every_reply;
    repeat rewrite filter_app; simpl; repeat rewrite app_nil_r; auto.
Qed.

(** X9.  A strategy does not look at what was bet before.  Two bets on the
    same epoch, one after the other and in any two directions, both go
    through: the history gains two records for that round, one per bet, and
    in simulation mode the stake and the fee are taken twice. *)
Theorem second_bet_is_not_deduplicated (first second : Bet) (epoch : num)
    (w w1 w2 : World num) (executed1 executed2 : bool) :
  run (strategy C first epoch) w = (Resolved executed1, w1) ->
  run (strategy C second epoch) w1 = (Resolved executed2, w2) ->
  exists (transaction1 transaction2 : Outcome num) (round : num),
    executed1 = transaction1.(betExecuted) /\
    executed2 = transaction2.(betExecuted) /\
    w2.(history) =
      w.(history) ++
      [ bet_record first round (cryptoBetAmount C w) transaction1;
        bet_record second round (cryptoBetAmount C w) transaction2 ] /\
    (w.(GLOBAL_CONFIG).(SIMULATION_MODE) = true ->
     w2.(simulationBalance) =
       sub (sub (sub (sub w.(simulationBalance) w.(configuredBetAmount))
                     (C.(parseFeeFromCryptoToUsd) transaction1.(txGasFee)))
                w.(configuredBetAmount))
           (C.(parseFeeFromCryptoToUsd) transaction2.(txGasFee))).
Proof.
  intros Hrun1 Hrun2.
  destruct (strategy_resolved_inv _ _ _ _ Hrun1)
    as (r1 & t1 & round1 & Hbet1 & Hparse1 & Hround1 & Hsave1).
  rewrite (strategy_resolved _ _ _ _ Hbet1 Hparse1 Hround1 Hsave1) in Hrun1.
  inversion Hrun1; subst; clear Hrun1.
  destruct (strategy_resolved_inv _ _ _ _ Hrun2)
    as (r2 & t2 & round2 & Hbet2 & Hparse2 & Hround2 & Hsave2).
  rewrite (strategy_resolved _ _ _ _ Hbet2 Hparse2 Hround2 Hsave2) in Hrun2.
  inversion Hrun2; subst; clear Hrun2.
  assert (round2 = round1) by congruence. subst round2.
  exists t1, t2, round1. simpl.
  unfold cryptoBetAmount. simpl.
  repeat split.
  - rewrite <- app_assoc. reflexivity.
  - intros Hsim. rewrite Hsim. reflexivity.
Qed.

End Frames.

Section Safety.

Context (num exn : Type) {arith : JsArith num}.
Variable C : Collaborators num exn.

(** X10.  [claimRewards] is only ever called for a round that was checked:
    if a run of [claimStrategy] made a claim, then [CLAIM_REWARDS] was on,
    the claimability check for the epoch answered true, and the claim was
    for the list [[epoch]]. *)
Theorem claim_only_when_enabled_and_claimable
    (epoch : num) (w : World num) (made : list (Call num)) (epochs : list num) :
  calls (snd (run (claimStrategy C epoch) w)) = w.(calls) ++ made ->
  In (call_claimRewards epochs) made ->
  w.(GLOBAL_CONFIG).(CLAIM_REWARDS) = true /\
  C.(reply_isClaimableRound) epoch = Resolved true /\
  epochs = [epoch].
Proof.
  simpl. destruct (CLAIM_REWARDS (GLOBAL_CONFIG w)); simpl.
  - destruct (reply_isClaimableRound C epoch) as [[|] | e]; simpl.
    + intros Hcalls Hin.
      assert (Hmade : made = [call_isClaimableRound epoch; call_claimRewards [epoch]]).
      { destruct (reply_claimRewards C [epoch]); simpl in Hcalls;
          rewrite <- app_assoc in Hcalls;
          apply app_inv_head in Hcalls; auto. }
      subst made. simpl in Hin.
      destruct Hin as [Hin | [Hin | []]]; [discriminate |].
      inversion Hin. auto.
    + intros Hcalls Hin. apply app_inv_head in Hcalls. subst made.
      simpl in Hin. destruct Hin as [Hin | []]. discriminate.
    + intros Hcalls Hin. apply app_inv_head in Hcalls. subst made.
      simpl in Hin. destruct Hin as [Hin | []]. discriminate.
  - intros Hcalls Hin.
    rewrite <- (app_nil_r (calls w)) in Hcalls at 1.
    apply app_inv_head in Hcalls. subst made. destruct Hin.
Qed.

(** X11.  A bet strategy reports an executed bet exactly when the receipt
    it got has status 1: the boolean it resolves with is [status === 1] of
    that receipt, whether or not the receipt is flagged as an exception. *)
Theorem executed_means_status_1 (direction : Bet) (epoch : num)
    (w w' : World num) (executed : bool) :
  run (strategy C direction epoch) w = (Resolved executed, w') ->
  exists txReceipt : TxReceipt num,
    reply_bet C direction (cryptoBetAmount C w) epoch = Resolved txReceipt /\
    executed = (txReceipt.(status) =? 1).
Proof.
  intros Hrun.
  destruct (strategy_resolved_inv _ _ _ _ Hrun)
    as (txReceipt & transaction & round & Hbet & Hparse & Hround & Hsave).
  rewrite (strategy_resolved _ _ _ _ Hbet Hparse Hround Hsave) in Hrun.
  inversion Hrun; subst; clear Hrun.
  exists txReceipt. split; [exact Hbet |].
  unfold parseTransactionReceipt in Hparse.
  destruct (truthy (transactionExeption txReceipt)).
  - inversion Hparse. reflexivity.
  - destruct (formatUnit C (gasUsed txReceipt) None) as [gas | e];
      simpl in Hparse; [| discriminate].
    destruct (formatUnit C (effectiveGasPrice txReceipt) None) as [price | e];
      simpl in Hparse; [| discriminate].
    destruct (formatUnit C (Some (mul gas price)) (Some "18"%string)) as [fee | e];
      simpl in Hparse; [| discriminate].
    inversion Hparse. reflexivity.
Qed.

End Safety.

(** ** The further properties on concrete runs *)

(** A receipt without gas fields and without the exception flag: the bet is
    sent and the strategy rejects with the formatter's error. *)
Lemma unparsed_receipt_stops_strategy_witness :
  run (strategy Sample.bare BET_DOWN Sample.epoch) (Sample.world true true) =
    (Rejected "invalid BigNumber value"%string,
     log (call_bet BET_DOWN (cryptoBetAmount Sample.bare (Sample.world true true))
            Sample.epoch)
       (Sample.world true true)).
Proof.
  refine (unparsed_receipt_stops_strategy Sample.bare BET_DOWN Sample.epoch
            (Sample.world true true) (txReceipt := Sample.receipt_bare) _ _);
    reflexivity.
Defined.

(** The epoch cannot be formatted: the balance went from 100 to 97 and the
    history is still empty. *)
Lemma unformatted_epoch_stops_strategy_witness :
  run (strategy Sample.unformattable BET_UP Sample.epoch) (Sample.world true true) =
    (Rejected "format"%string,
     {| GLOBAL_CONFIG := GLOBAL_CONFIG (Sample.world true true);
        configuredBetAmount := 3%Q;
        simulationBalance :=
          balance_after Sample.unformattable (Sample.world true true)
            {| betExecuted := false; txGasFee := 0%Q |};
        history := [];
        calls :=
          [] ++
          call_bet BET_UP (cryptoBetAmount Sample.unformattable (Sample.world true true))
            Sample.epoch ::
          ledger_calls Sample.unformattable (Sample.world true true)
            {| betExecuted := false; txGasFee := 0%Q |} |}).
Proof.
  refine (unformatted_epoch_stops_strategy Sample.unformattable BET_UP Sample.epoch
            (Sample.world true true) (txReceipt := Sample.receipt_exception) _ _ _);
    reflexivity.
Defined.

(** The history store refuses the write of a simulated bet. *)
Lemma failed_save_keeps_debit_witness :
  fst (run (strategy Sample.failing BET_DOWN Sample.epoch) (Sample.world true true)) =
    Rejected "disk"%string /\
  simulationBalance
    (snd (run (strategy Sample.failing BET_DOWN Sample.epoch) (Sample.world true true))) =
    balance_after Sample.failing (Sample.world true true)
      {| betExecuted := true; txGasFee := (21 # 200000)%Q |} /\
  history
    (snd (run (strategy Sample.failing BET_DOWN Sample.epoch) (Sample.world true true))) =
    [].
Proof.
  refine (failed_save_keeps_debit Sample.failing BET_DOWN Sample.epoch
            (Sample.world true true) (txReceipt := Sample.receipt_21000)
            (round := Sample.epoch) _ _ _ _);
    reflexivity.
Defined.


(** A bet down and then a bet up on round 157572, in simulation mode. *)
Lemma second_bet_is_not_deduplicated_witness :
  exists (transaction1 transaction2 : Outcome Q) (round : Q),
    history
      (snd (run (strategy Sample.happy BET_UP Sample.epoch)
              (snd (run (strategy Sample.happy BET_DOWN Sample.epoch)
                      (Sample.world true true))))) =
      [ bet_record BET_DOWN round (3 / 300)%Q transaction1;
        bet_record BET_UP round (3 / 300)%Q transaction2 ] /\
    simulationBalance
      (snd (run (strategy Sample.happy BET_UP Sample.epoch)
              (snd (run (strategy Sample.happy BET_DOWN Sample.epoch)
                      (Sample.world true true))))) =
      sub (sub (sub (sub 100%Q 3%Q)
                    (parseFeeFromCryptoToUsd Sample.happy transaction1.(txGasFee)))
               3%Q)
          (parseFeeFromCryptoToUsd Sample.happy transaction2.(txGasFee)).
Proof.
  assert (Hboth :
            exists (transaction1 transaction2 : Outcome Q) (round : Q),
              true = transaction1.(betExecuted) /\
              true = transaction2.(betExecuted) /\
              _ = _ /\ (_ -> _))
    by (refine (second_bet_is_not_deduplicated Sample.happy BET_DOWN BET_UP Sample.epoch
                  (Sample.world true true)
                  (w1 := snd (run (strategy Sample.happy BET_DOWN Sample.epoch)
                                (Sample.world true true)))
                  (w2 := snd (run (strategy Sample.happy BET_UP Sample.epoch)
                                (snd (run (strategy Sample.happy BET_DOWN Sample.epoch)
                                        (Sample.world true true)))))
                  (executed1 := true) (executed2 := true) _ _);
        reflexivity).
  destruct Hboth as (t1 & t2 & round & _ & _ & Hhistory & Hbalance).
  exists t1, t2, round. split; [exact Hhistory | exact (Hbalance eq_refl)].
Defined.

(** The one claim made for round 157572 was allowed and checked. *)
Lemma claim_only_when_enabled_and_claimable_witness :
  CLAIM_REWARDS (GLOBAL_CONFIG (Sample.world true true)) = true /\
  reply_isClaimableRound Sample.happy Sample.epoch = Resolved true /\
  [Sample.epoch] = [Sample.epoch].
Proof.
  refine (claim_only_when_enabled_and_claimable Sample.happy Sample.epoch
            (Sample.world true true)
            [call_isClaimableRound Sample.epoch; call_claimRewards [Sample.epoch]]
            [Sample.epoch] _ _).
  - reflexivity.
  - simpl. right. left. reflexivity.
Defined.

(** A flagged receipt with status 0 is reported as not executed. *)
Lemma executed_means_status_1_witness :
  exists txReceipt : TxReceipt Q,
    reply_bet Sample.throwing BET_DOWN
      (cryptoBetAmount Sample.throwing (Sample.world false true)) Sample.epoch =
      Resolved txReceipt /\
    false = (txReceipt.(status) =? 1).
Proof.
  refine (executed_means_status_1 Sample.throwing BET_DOWN Sample.epoch
            (Sample.world false true)
            (w' := snd (run (strategy Sample.throwing BET_DOWN Sample.epoch)
                          (Sample.world false true)))
            (executed := false) _).
  reflexivity.
Defined.
